(** * get_del_Q: configuration-coordinate displacement between two structures

    Shallow embedding of [script/get_del_Q.py].  The script reads two (or
    three) POSCAR structures through pymatgen, forms the minimum-image
    displacement field, reduces it to the scalar [delta_Q] and, when a medium
    structure is given, projects it on the path from the initial to the final
    structure.

    Numbers.  NumPy computes in binary64.  The embedding keeps the special
    values of that format ([nan], the two infinities) but computes finite
    values exactly, in [R]: rounding, overflow and the sign of zero are
    abstracted away.  Every statement below over [R] is therefore a
    statement about the exact-arithmetic reading of the script.  The module
    [Binary64] repeats the numeric lines on IEEE binary64 numbers; its runs
    show where rounding takes the script away from that reading. *)

From Stdlib Require Import Reals Lra Lia List String Bool ZArith Psatz.
From Stdlib Require PrimFloat Uint63.
Import ListNotations.
Open Scope R_scope.

(** ** NumPy scalars *)

Module NumPy.

(** A float64 as the script can observe it: a finite value, a signed
    infinity or not-a-number. *)
Inductive npfloat : Type :=
| Num (x : R)
| Inf (neg : bool)
| NaN.

Definition is_neg (x : R) : bool := if Rlt_dec x 0 then true else false.

Definition is_zero (x : R) : bool := if Req_dec_T x 0 then true else false.

(** [a + b] *)
Definition np_add (a b : npfloat) : npfloat :=
  match a, b with
  | NaN, _ | _, NaN => NaN
  | Num x, Num y => Num (x + y)
  | Inf s, Num _ | Num _, Inf s => Inf s
  | Inf s, Inf t => if Bool.eqb s t then Inf s else NaN
  end.

(** [a * b] *)
Definition np_mul (a b : npfloat) : npfloat :=
  match a, b with
  | NaN, _ | _, NaN => NaN
  | Num x, Num y => Num (x * y)
  | Inf s, Num y | Num y, Inf s =>
      if is_zero y then NaN else Inf (xorb s (is_neg y))
  | Inf s, Inf t => Inf (xorb s t)
  end.

(** [a / b] on arrays: a zero divisor gives [nan] for [0 / 0] and an infinity
    otherwise (NumPy warns and goes on). *)
Definition np_div (a b : npfloat) : npfloat :=
  match a, b with
  | NaN, _ | _, NaN => NaN
  | Num x, Num y =>
      if is_zero y then (if is_zero x then NaN else Inf (is_neg x))
      else Num (x / y)
  | Num _, Inf _ => Num 0
  | Inf s, Num y => Inf (xorb s (is_neg y))
  | Inf _, Inf _ => NaN
  end.

(** [np.sqrt] of a finite value: [nan] below zero. *)
Definition np_sqrt (x : R) : npfloat :=
  if Rlt_dec x 0 then NaN else Num (sqrt x).

(** [a % b] for finite [a] and [b <> 0]: the remainder has the sign of the
    divisor ([a - floor (a / b) * b]).  The script only divides by [1]. *)
Definition np_mod (a b : R) : R := a - IZR (Zfloor (a / b)) * b.

(** [a == 0.0] *)
Definition eq_zero (a : npfloat) : bool :=
  match a with
  | Num x => is_zero x
  | _ => false
  end.

(** [a.sum()] of a one-dimensional array. *)
Definition np_sum (a : list npfloat) : npfloat :=
  fold_left np_add a (Num 0).

(** Elementwise binary operation along the first axis, with NumPy's
    broadcasting rule: equal lengths pair up, a length-one operand is
    repeated, anything else is a shape error. *)
Definition zip_with {A B C : Type} (f : A -> B -> C)
  (a : list A) (b : list B) : list C :=
  map (fun p => f (fst p) (snd p)) (combine a b).

Definition broadcast {A B C : Type} (f : A -> B -> C)
  (a : list A) (b : list B) : option (list C) :=
  if Nat.eqb (List.length a) (List.length b) then Some (zip_with f a b)
  else match a, b with
       | [x], _ => Some (map (f x) b)
       | _, [y] => Some (map (fun x => f x y) a)
       | _, _ => None
       end.

End NumPy.

Import NumPy.

(** ** Arrays of three-vectors *)

(** A row of an [(n, 3)] array. *)
Record vec3 : Type := V3 { c0 : R; c1 : R; c2 : R }.

(** A [3 x 3] matrix, by rows. *)
Record mat3 : Type := M3 { row0 : vec3; row1 : vec3; row2 : vec3 }.

Definition vmap (f : R -> R) (v : vec3) : vec3 :=
  V3 (f (c0 v)) (f (c1 v)) (f (c2 v)).

Definition vsub (a b : vec3) : vec3 :=
  V3 (c0 a - c0 b) (c1 a - c1 b) (c2 a - c2 b).


(** One row of [np.dot(delta, lattice)]: the row vector times the matrix. *)
Definition np_dot (v : vec3) (m : mat3) : vec3 :=
  V3 (c0 v * c0 (row0 m) + c1 v * c0 (row1 m) + c2 v * c0 (row2 m))
     (c0 v * c1 (row0 m) + c1 v * c1 (row1 m) + c2 v * c1 (row2 m))
     (c0 v * c2 (row0 m) + c1 v * c2 (row1 m) + c2 v * c2 (row2 m)).

(** One row of [np.einsum("ij,ij->i", a, b)]. *)
Definition vdot (a b : vec3) : R :=
  c0 a * c0 b + c1 a * c1 b + c2 a * c2 b.

(** One row of [np.linalg.norm(a, axis=1)].  The argument of the root is a
    sum of squares, so the root is always defined. *)
Definition vnorm (a : vec3) : R :=
  sqrt (c0 a * c0 a + c1 a * c1 a + c2 a * c2 a).

(** [a.sum()] of an [(n, 3)] array: every entry of every row. *)
Definition arr_sum (a : list vec3) : R :=
  fold_left (fun acc v => acc + (c0 v + c1 v + c2 v)) a 0.

(** ** The pymatgen objects the script touches *)

(** A species object; the script reads its [atomic_mass].  Atomic masses are
    positive constants of the periodic table. *)
Record Species : Type := mkSpecies {
  symbol : string;
  atomic_mass : R;
  atomic_mass_pos : 0 < atomic_mass
}.

Record PeriodicSite : Type := mkSite { specie : Species; frac : vec3 }.

Record Lattice : Type := mkLattice { matrix : mat3 }.

(** A structure is a lattice and a sequence of sites; [frac_coords] and
    [species] are read off the sites, in order. *)
Record Structure : Type := mkStructure {
  lattice : Lattice;
  sites : list PeriodicSite
}.

Definition frac_coords (s : Structure) : list vec3 := map frac (sites s).

Definition species (s : Structure) : list Species := map specie (sites s).

Record Poscar : Type := mkPoscar {
  structure : Structure;
  site_symbols : list string
}.

(** What [Poscar.from_file] finds at a path: a parsed file, or nothing
    when no file is there.  A file that is there but does not parse ends
    the real run with another exception, which does not name the path;
    such files, and the POTCAR files pymatgen may look for beside a POSCAR
    to name the elements, are outside this embedding.  pymatgen builds no
    structure without sites; the statements that need an atom say so. *)
Definition filesystem : Type := string -> option Poscar.

(** ** Runs: standard output and exceptions *)

(** [FileError path]: no file at [path]. *)
Inductive exn : Type :=
| FileError (path : string)
| ValueError
| TypeError
| ZeroDivisionError.

(** A printed line: the label and the number after it. *)
Definition line : Type := (string * npfloat)%type.

(** A run prints lines and either raises or returns. *)
Record run (A : Type) : Type := Run {
  stdout : list line;
  result : exn + A
}.
Arguments Run {A} _ _.
Arguments stdout {A} _.
Arguments result {A} _.

Definition ret {A : Type} (x : A) : run A := Run [] (inr x).

Definition raise {A : Type} (e : exn) : run A := Run [] (inl e).

Definition bind {A B : Type} (m : run A) (k : A -> run B) : run B :=
  match result m with
  | inl e => Run (stdout m) (inl e)
  | inr x => Run (stdout m ++ stdout (k x)) (result (k x))
  end.

Notation "x <- m ;; k" := (bind m (fun x => k))
  (at level 61, m at next level, right associativity).
Notation "m ;; k" := (bind m (fun _ => k))
  (at level 61, right associativity).

Definition print (label : string) (v : npfloat) : run unit :=
  Run [(label, v)] (inr tt).

(** A broadcasting failure surfaces as [ValueError]. *)
Definition shape {A : Type} (o : option A) : run A :=
  match o with
  | Some x => ret x
  | None => raise ValueError
  end.

(** [np.average(a)]: the mean; of an empty array it is [0 / 0]. *)
Definition np_average (a : list npfloat) : run npfloat :=
  ret (np_div (np_sum a) (Num (INR (List.length a)))).

(** [np.average(a, weights=w)]: the shapes must agree, the weights must not
    sum to zero. *)
Definition np_average_weights (a w : list npfloat) : run npfloat :=
  if negb (Nat.eqb (List.length a) (List.length w)) then raise TypeError
  else
    let scl := np_sum w in
    if eq_zero scl then raise ZeroDivisionError
    else ret (np_div (np_sum (zip_with np_mul a w)) scl).

(** ** The script *)

Open Scope string_scope.

(** Parsed command line.  [--med] has [nargs="?"]: a bare [-m] stores
    [None]; leaving the option out stores the default ["unassigned"]. *)
Record Args : Type := mkArgs {
  init : string;
  fin : string;
  med : option string;
  no_weight : bool
}.

Definition default_args : Args :=
  mkArgs "./POSCAR_i" "./POSCAR_f" (Some "unassigned") false.

(** ["{}".format(i_path)] *)
Definition format (i_path : option string) : string :=
  match i_path with
  | Some s => s
  | None => "None"
  end.

(** [read_poscar]: the structure, and the site symbols when asked for. *)
Definition read_poscar (fs : filesystem) (i_path : option string)
  (l_get_sorted_symbols : bool) : run (Structure * option (list string)) :=
  match fs (format i_path) with
  | None => raise (FileError (format i_path))
  | Some poscar =>
      let struct := structure poscar in
      if l_get_sorted_symbols then ret (struct, Some (site_symbols poscar))
      else ret (struct, None)
  end.

(** [args.med != "unassigned"] is [negb (is_unassigned args.med)]; [None]
    is not the sentinel. *)
Definition is_unassigned (m : option string) : bool :=
  match m with
  | Some s => String.eqb s "unassigned"
  | None => false
  end.

(** [main], statement by statement.  An [(n, 3)] array is a list of rows;
    every binary array operation goes through [broadcast]. *)
Definition main (fs : filesystem) (args : Args) : run unit :=
  r_i <- read_poscar fs (Some (init args)) false ;;
  let struct_i := fst r_i in
  r_f <- read_poscar fs (Some (fin args)) true ;;
  let struct_f := fst r_f in
  delta_R <- shape (broadcast vsub (frac_coords struct_f)
                      (frac_coords struct_i)) ;;
  let delta_R := map (vmap (fun x => np_mod (x + 0.5) 1 - 0.5)) delta_R in
  let lattice := matrix (lattice struct_i) in
  let delta_R := map (fun r => np_dot r lattice) delta_R in
  let masses := map atomic_mass (species struct_i) in
  delta_Q2 <-
    (if no_weight args then ret (map (vmap (fun x => x ^ 2)) delta_R)
     else shape (broadcast (fun m r => vmap (Rmult m) r) masses
                   (map (vmap (fun x => x ^ 2)) delta_R))) ;;
  let delta_Q := np_sqrt (arr_sum delta_Q2) in
  print "Delta Q:" delta_Q ;;
  if negb (is_unassigned (med args)) then
    r_m <- read_poscar fs (med args) false ;;
    let struct_m := fst r_m in
    delta_M <- shape (broadcast vsub (frac_coords struct_m)
                        (frac_coords struct_i)) ;;
    let delta_M := map (vmap (fun x => np_mod (x + 0.5) 1 - 0.5)) delta_M in
    let delta_M := map (fun r => np_dot r lattice) delta_M in
    dots <- shape (broadcast vdot delta_R delta_M) ;;
    let norm := map vnorm delta_R in
    delta_M_proj <- shape (broadcast np_div (map Num dots) (map Num norm)) ;;
    frac_delta_M_proj <-
      shape (broadcast np_div delta_M_proj (map Num norm)) ;;
    res <-
      (if no_weight args then np_average frac_delta_M_proj
       else np_average_weights frac_delta_M_proj (map np_sqrt masses)) ;;
    print "Projected delta Q:" (np_mul delta_Q res) ;;
    print "Fractional displacement:" res
  else ret tt.

(** ** The steps of [main], named

    The same statements grouped into the four steps the description
    distinguishes; [pipeline] chains them and is shown equal to [main]. *)

(** The wrap of lines 35 and 53. *)
Definition wrap (x : R) : R := np_mod (x + 0.5) 1 - 0.5.

(** Lines 34-37, and again 52-54: difference of fractional coordinates,
    wrapped and taken to Cartesian coordinates with the given lattice. *)
Definition min_image (coords_b coords_a : list vec3) (lattice : mat3)
  : run (list vec3) :=
  delta <- shape (broadcast vsub coords_b coords_a) ;;
  let delta := map (vmap wrap) delta in
  ret (map (fun r => np_dot r lattice) delta).

(** Lines 42-46. *)
Definition get_delta_Q (no_weight : bool) (masses : list R)
  (delta_R : list vec3) : run npfloat :=
  delta_Q2 <-
    (if no_weight then ret (map (vmap (fun x => x ^ 2)) delta_R)
     else shape (broadcast (fun m r => vmap (Rmult m) r) masses
                   (map (vmap (fun x => x ^ 2)) delta_R))) ;;
  ret (np_sqrt (arr_sum delta_Q2)).

(** Lines 57-61: the per-atom fractional projections. *)
Definition get_frac_delta_M_proj (delta_R delta_M : list vec3)
  : run (list npfloat) :=
  dots <- shape (broadcast vdot delta_R delta_M) ;;
  let norm := map vnorm delta_R in
  delta_M_proj <- shape (broadcast np_div (map Num dots) (map Num norm)) ;;
  shape (broadcast np_div delta_M_proj (map Num norm)).

(** Lines 63-66. *)
Definition get_res (no_weight : bool) (masses : list R)
  (frac_delta_M_proj : list npfloat) : run npfloat :=
  if no_weight then np_average frac_delta_M_proj
  else np_average_weights frac_delta_M_proj (map np_sqrt masses).

Definition pipeline (fs : filesystem) (args : Args) : run unit :=
  r_i <- read_poscar fs (Some (init args)) false ;;
  let struct_i := fst r_i in
  r_f <- read_poscar fs (Some (fin args)) true ;;
  let struct_f := fst r_f in
  let lattice := matrix (lattice struct_i) in
  delta_R <- min_image (frac_coords struct_f) (frac_coords struct_i) lattice ;;
  let masses := map atomic_mass (species struct_i) in
  delta_Q <- get_delta_Q (no_weight args) masses delta_R ;;
  print "Delta Q:" delta_Q ;;
  if negb (is_unassigned (med args)) then
    r_m <- read_poscar fs (med args) false ;;
    let struct_m := fst r_m in
    delta_M <- min_image (frac_coords struct_m) (frac_coords struct_i)
                 lattice ;;
    frac_delta_M_proj <- get_frac_delta_M_proj delta_R delta_M ;;
    res <- get_res (no_weight args) masses frac_delta_M_proj ;;
    print "Projected delta Q:" (np_mul delta_Q res) ;;
    print "Fractional displacement:" res
  else ret tt.

(** ** The quantities the description speaks of, atom by atom *)

Module Spec.

Open Scope R_scope.

Definition origin : vec3 := V3 0 0 0.

(** Fractional coordinates and mass of atom [i]. *)
Definition position (s : Structure) (i : nat) : vec3 :=
  nth i (frac_coords s) origin.

Definition mass (s : Structure) (i : nat) : R :=
  nth i (map atomic_mass (species s)) 0.

(** Minimum-image Cartesian displacement of atom [i] from structure [a] to
    structure [b], in the lattice [L]. *)
Definition atom_disp (L : mat3) (a b : Structure) (i : nat) : vec3 :=
  np_dot (vmap wrap (vsub (position b i) (position a i))) L.

(** Sum over the atoms [0 .. n-1]. *)
Fixpoint sum_atoms (n : nat) (f : nat -> R) : R :=
  match n with
  | O => 0
  | S k => sum_atoms k f + f k
  end.

Fixpoint np_sum_atoms (n : nat) (f : nat -> npfloat) : npfloat :=
  match n with
  | O => Num 0
  | S k => np_add (np_sum_atoms k f) (f k)
  end.

(** [sqrt (sum_i w_i |dr_i|^2)], with [w_i] the mass or one. *)
Definition delta_Q (weighted : bool) (a b : Structure) : R :=
  let n := List.length (sites a) in
  let L := matrix (lattice a) in
  sqrt (sum_atoms n (fun i =>
          (if weighted then mass a i else 1) * vnorm (atom_disp L a b i) ^ 2)).

(** Fractional projection of one atom: the dot product divided by the norm
    of the path vector, and divided by it once more. *)
Definition atom_fraction (dr dm : vec3) : npfloat :=
  np_div (np_div (Num (vdot dm dr)) (Num (vnorm dr))) (Num (vnorm dr)).

Definition mean (n : nat) (f : nat -> npfloat) : npfloat :=
  np_div (np_sum_atoms n f) (Num (INR n)).

Definition weighted_mean (n : nat) (w : nat -> R) (f : nat -> npfloat)
  : npfloat :=
  np_div (np_sum_atoms n (fun i => np_mul (f i) (Num (w i))))
         (Num (sum_atoms n w)).

(** Fractional projection of atom [i] of the medium structure [m] on the
    path from [a] to [b]. *)
Definition fraction (a b m : Structure) (i : nat) : npfloat :=
  atom_fraction (atom_disp (matrix (lattice a)) a b i)
                (atom_disp (matrix (lattice a)) a m i).

(** Its average over the atoms: weighted by the square roots of the masses,
    or plain. *)
Definition average (weighted : bool) (a b m : Structure) : npfloat :=
  let n := List.length (sites a) in
  if weighted then weighted_mean n (fun i => sqrt (mass a i)) (fraction a b m)
  else mean n (fraction a b m).

End Spec.

(** The array [delta_R] (or [delta_M]) when the two coordinate arrays have
    the same number of rows. *)
Definition displacement (coords_b coords_a : list vec3) (L : mat3)
  : list vec3 :=
  map (fun r => np_dot r L) (map (vmap wrap) (zip_with vsub coords_b coords_a)).

(** Two lookups agree up to the lattice (and the symbol list): both fail,
    or both find structures with the same sites. *)
Definition same_sites (x y : option Poscar) : Prop :=
  match x, y with
  | Some p, Some q => sites (structure p) = sites (structure q)
  | None, None => True
  | _, _ => False
  end.



(** Every component already lies in the wrap's range. *)
Definition in_range (v : vec3) : Prop :=
  -0.5 <= c0 v < 0.5 /\ -0.5 <= c1 v < 0.5 /\ -0.5 <= c2 v < 0.5.


(** ** The same arithmetic in binary64

    The numeric lines of [main] once more, on IEEE binary64 numbers, for
    arrays of equal length.  Here every operation rounds, so this module
    shows where the script leaves the exact reading above.  Sums and dot
    products are accumulated from left to right, in storage order. *)

Module Binary64.

Import PrimFloat.
Local Open Scope float_scope.

Definition two52 : float := 0x1p52.

(** Integer part of a non-negative number: numbers from [2^52] on are
    whole; below, adding and subtracting [2^52] rounds to a whole number,
    which is lowered by one if it came out above. *)
Definition trunc_abs (a : float) : float :=
  if ltb a two52 then
    let t := (a + two52) - two52 in
    if ltb a t then t - 1 else t
  else a.

(** C's [fmod(a, 1)]: [a] minus its integer part, with the sign of [a];
    the result is exact. *)
Definition fmod1 (a : float) : float :=
  let r := abs a - trunc_abs (abs a) in
  if ltb a 0 then - r else r.

(** [a % 1] as NumPy computes it: [fmod], moved up by one when negative. *)
Definition np_mod1 (a : float) : float :=
  let m := fmod1 a in
  if eqb m 0 then 0 else if ltb m 0 then m + 1 else m.

(** Lines 35 and 53. *)
Definition wrap (x : float) : float := np_mod1 (x + 0.5) - 0.5.

Record vec3 : Type := V3 { c0 : float; c1 : float; c2 : float }.

Record mat3 : Type := M3 { row0 : vec3; row1 : vec3; row2 : vec3 }.

Definition vmap (f : float -> float) (v : vec3) : vec3 :=
  V3 (f (c0 v)) (f (c1 v)) (f (c2 v)).

Definition vsub (a b : vec3) : vec3 :=
  V3 (c0 a - c0 b) (c1 a - c1 b) (c2 a - c2 b).

Definition np_dot (v : vec3) (m : mat3) : vec3 :=
  V3 (c0 v * c0 (row0 m) + c1 v * c0 (row1 m) + c2 v * c0 (row2 m))
     (c0 v * c1 (row0 m) + c1 v * c1 (row1 m) + c2 v * c1 (row2 m))
     (c0 v * c2 (row0 m) + c1 v * c2 (row1 m) + c2 v * c2 (row2 m)).

Definition vdot (a b : vec3) : float :=
  c0 a * c0 b + c1 a * c1 b + c2 a * c2 b.

Definition vnorm (a : vec3) : float :=
  sqrt (c0 a * c0 a + c1 a * c1 a + c2 a * c2 a).

Definition arr_sum (a : list vec3) : float :=
  fold_left (fun acc v => acc + c0 v + c1 v + c2 v) a 0.

Definition np_sum (a : list float) : float := fold_left add a 0.

(** Lines 34-37 and 52-54. *)
Definition displacement (coords_b coords_a : list vec3) (lattice : mat3)
  : list vec3 :=
  map (fun r => np_dot r lattice)
    (map (vmap wrap) (zip_with vsub coords_b coords_a)).

(** Lines 42-46. *)
Definition delta_Q (no_weight : bool) (masses : list float)
  (delta_R : list vec3) : float :=
  let squares := map (vmap (fun x => x * x)) delta_R in
  sqrt (arr_sum (if no_weight then squares
                 else zip_with (fun m r => vmap (mul m) r) masses squares)).

(** Lines 57-61. *)
Definition frac_delta_M_proj (delta_R delta_M : list vec3) : list float :=
  let dots := zip_with vdot delta_R delta_M in
  let norm := map vnorm delta_R in
  let delta_M_proj := zip_with div dots norm in
  zip_with div delta_M_proj norm.




Definition sheared : mat3 := M3 (V3 1 0 0) (V3 1 1 0) (V3 0 0 1).

Definition cubic (len : float) : mat3 :=
  M3 (V3 len 0 0) (V3 0 len 0) (V3 0 0 len).

Definition origin : vec3 := V3 0 0 0.








Definition is_nan (x : float) : bool := negb (eqb x x).

(** [-0.5 <= x < 0.5] *)
Definition in_range (x : float) : bool := leb (-0.5) x && ltb x 0.5.






End Binary64.

(** ** Relations between inputs *)



(** The command line with [--no_weight] set or cleared. *)
Definition set_no_weight (b : bool) (args : Args) : Args :=
  mkArgs (init args) (fin args) (med args) b.



(** ** Small structures used to exercise the statements *)

Module Example.

Definition hydrogen : Species := mkSpecies "H" 1.00794 ltac:(lra).

Definition carbon : Species := mkSpecies "C" 12.0107 ltac:(lra).

Definition cubic (len : R) : Lattice :=
  mkLattice (M3 (V3 len 0 0) (V3 0 len 0) (V3 0 0 len)).

(** Second basis vector tilted towards the first. *)
Definition sheared : Lattice :=
  mkLattice (M3 (V3 1 0 0) (V3 1 1 0) (V3 0 0 1)).

Definition one_atom (L : Lattice) (sp : Species) (x y z : R) : Poscar :=
  mkPoscar (mkStructure L [mkSite sp (V3 x y z)]) [symbol sp].

Definition files (i f m : Poscar) : filesystem :=
  fun path =>
    if String.eqb path "./POSCAR_i" then Some i
    else if String.eqb path "./POSCAR_f" then Some f
    else if String.eqb path "./POSCAR_m" then Some m
    else None.

Definition with_med (no_weight : bool) : Args :=
  mkArgs "./POSCAR_i" "./POSCAR_f" (Some "./POSCAR_m") no_weight.

Definition without_med (no_weight : bool) : Args :=
  mkArgs "./POSCAR_i" "./POSCAR_f" (Some "unassigned") no_weight.





(** A carbon atom stepping by 0.2 in a cell of edge 10, and its midpoint. *)
Definition near_i : Poscar := one_atom (cubic 10) carbon 0 0 0.
Definition near_f : Poscar := one_atom (cubic 10) carbon 0.2 0 0.
Definition near_m : Poscar := one_atom (cubic 10) carbon 0.1 0 0.

(** The final and medium files of the last run, written with another cell. *)
Definition near_f' : Poscar := one_atom sheared carbon 0.2 0 0.
Definition near_m' : Poscar := one_atom (cubic 2) carbon 0.1 0 0.

(** An atom that stays where it is. *)
Definition rest : Poscar := one_atom (cubic 1) hydrogen 0 0 0.

Definition two_atoms (L : Lattice) (sp : Species) (x y : vec3) : Poscar :=
  mkPoscar (mkStructure L [mkSite sp x; mkSite sp y]) [symbol sp].

Definition three_atoms (L : Lattice) (sp : Species) (x y z : vec3)
  : Poscar :=
  mkPoscar (mkStructure L [mkSite sp x; mkSite sp y; mkSite sp z])
    [symbol sp].

(** Two carbon atoms, each stepping by 0.2 along one axis, and a medium
    structure a quarter of the way. *)
Definition pair_i : Poscar :=
  two_atoms (cubic 10) carbon (V3 0 0 0) (V3 0.5 0.5 0.5).
Definition pair_f : Poscar :=
  two_atoms (cubic 10) carbon (V3 0.2 0 0) (V3 0.5 0.7 0.5).
Definition pair_m : Poscar :=
  two_atoms (cubic 10) carbon (V3 0.05 0 0) (V3 0.5 0.55 0.5).



(** Three atoms, for runs on files of different length. *)
Definition triple : Poscar :=
  three_atoms (cubic 10) carbon (V3 0 0 0) (V3 0.5 0.5 0.5) (V3 0.25 0 0).

End Example.

(** What a run printed after a given label, if anything. *)
Definition printed (label : string) (out : list line) : option npfloat :=
  option_map snd (find (fun l => String.eqb (fst l) label) out).

Close Scope string_scope.
Open Scope R_scope.

(** ** Scalars *)

Lemma np_mod_1 (a : R) : np_mod a 1 = a - IZR (Zfloor a).
Proof. unfold np_mod. rewrite Rdiv_1_r. ring. Qed.

Lemma wrap_floor (x : R) : wrap x = x - IZR (Zfloor (x + 0.5)).
Proof. unfold wrap. rewrite np_mod_1. lra. Qed.

Lemma wrap_bounds (x : R) : -0.5 <= wrap x < 0.5.
Proof.
  rewrite wrap_floor. pose proof (Zfloor_bound (x + 0.5)). lra.
Qed.

Lemma wrap_image (x : R) (k : Z) :
  -0.5 <= x - IZR k < 0.5 -> wrap x = x - IZR k.
Proof.
  intros H. rewrite wrap_floor. do 2 f_equal.
  apply Zfloor_eq. lra.
Qed.


Lemma wrap_0 : wrap 0 = 0.
Proof. rewrite (wrap_image 0 0); lra. Qed.

Lemma wrap_half : wrap 0.5 = -0.5.
Proof. rewrite (wrap_image 0.5 1); lra. Qed.

Lemma wrap_minus_half : wrap (-0.5) = -0.5.
Proof. rewrite (wrap_image (-0.5) 0); lra. Qed.

(** Negating the argument negates the wrapped value, except at the closed
    end of the range, which is its own image. *)
Lemma wrap_opp (x : R) : wrap x <> -0.5 -> wrap (- x) = - wrap x.
Proof.
  intros Hne. pose proof (wrap_bounds x) as Hb.
  rewrite (wrap_floor x) in *.
  set (k := Zfloor (x + 0.5)) in *.
  rewrite (wrap_image (- x) (- k)); rewrite opp_IZR; lra.
Qed.

Lemma wrap_opp_edge (x : R) : wrap x = -0.5 -> wrap (- x) = -0.5.
Proof.
  intros He. rewrite wrap_floor in He.
  set (k := Zfloor (x + 0.5)) in *.
  rewrite (wrap_image (- x) (- k + 1)); rewrite plus_IZR, opp_IZR; lra.
Qed.

Lemma wrap_opp_sqr (x : R) : wrap (- x) * wrap (- x) = wrap x * wrap x.
Proof.
  destruct (Req_dec_T (wrap x) (-0.5)) as [He | Hne].
  - rewrite (wrap_opp_edge x He), He. lra.
  - rewrite (wrap_opp x Hne). lra.
Qed.

Lemma np_sqrt_nonneg (x : R) : 0 <= x -> np_sqrt x = Num (sqrt x).
Proof.
  intros Hx. unfold np_sqrt. destruct (Rlt_dec x 0); [lra | reflexivity].
Qed.

Lemma is_zero_true (x : R) : x = 0 -> is_zero x = true.
Proof. intros ->. unfold is_zero. destruct (Req_dec_T 0 0); congruence. Qed.

Lemma is_zero_false (x : R) : x <> 0 -> is_zero x = false.
Proof. intros H. unfold is_zero. destruct (Req_dec_T x 0); congruence. Qed.


Lemma np_div_0_0 : np_div (Num 0) (Num 0) = NaN.
Proof. simpl. now rewrite is_zero_true. Qed.

Lemma np_add_nan_r (a : npfloat) : np_add a NaN = NaN.
Proof. now destruct a. Qed.

Lemma np_mul_nan_l (a : npfloat) : np_mul NaN a = NaN.
Proof. reflexivity. Qed.

Lemma np_mul_nan_r (a : npfloat) : np_mul a NaN = NaN.
Proof. now destruct a. Qed.

Lemma np_div_nan_l (a : npfloat) : np_div NaN a = NaN.
Proof. reflexivity. Qed.

(** ** Arrays *)

Section Arrays.

Context {A B C : Type}.
Variable f : A -> B -> C.

Lemma broadcast_same_length (a : list A) (b : list B) :
  List.length a = List.length b -> broadcast f a b = Some (zip_with f a b).
Proof.
  intros H. unfold broadcast. now rewrite H, Nat.eqb_refl.
Qed.

Lemma zip_with_length (a : list A) (b : list B) :
  List.length a = List.length b ->
  List.length (zip_with f a b) = List.length a.
Proof.
  intros H. unfold zip_with.
  rewrite length_map, length_combine, <- H. apply Nat.min_id.
Qed.

Lemma nth_zip_with (a : list A) (b : list B) (i : nat) (da : A) (db : B)
  (d : C) :
  List.length a = List.length b -> (i < List.length a)%nat ->
  nth i (zip_with f a b) d = f (nth i a da) (nth i b db).
Proof.
  revert b i. induction a as [| x a IH]; intros [| y b] i Hlen Hi;
    simpl in *; try lia.
  destruct i as [| i]; [reflexivity |].
  apply IH; lia.
Qed.

End Arrays.

Lemma nth_map_lt {A B : Type} (g : A -> B) (l : list A) (i : nat) (d : A)
  (e : B) :
  (i < List.length l)%nat -> nth i (map g l) e = g (nth i l d).
Proof.
  intros Hi. rewrite (nth_indep _ e (g d)) by now rewrite length_map.
  apply map_nth.
Qed.

(** A list is the table of its entries. *)
Lemma list_tabulate {A : Type} (l : list A) (d : A) :
  l = map (fun i => nth i l d) (seq 0 (List.length l)).
Proof.
  apply (nth_ext _ _ d d).
  - now rewrite length_map, length_seq.
  - intros i Hi. rewrite (nth_map_lt _ _ _ 0%nat) by now rewrite length_seq.
    now rewrite seq_nth.
Qed.

Lemma tabulate_ext {A : Type} (n : nat) (F G : nat -> A) :
  (forall i, (i < n)%nat -> F i = G i) ->
  map F (seq 0 n) = map G (seq 0 n).
Proof.
  intros H. apply map_ext_in. intros i Hi. apply in_seq in Hi.
  apply H. lia.
Qed.

Lemma arr_sum_tabulate (n : nat) (F : nat -> vec3) :
  arr_sum (map F (seq 0 n)) =
  Spec.sum_atoms n (fun i => c0 (F i) + c1 (F i) + c2 (F i)).
Proof.
  unfold arr_sum. induction n as [| n IH]; [reflexivity |].
  rewrite seq_S, map_app, fold_left_app, IH. reflexivity.
Qed.

Lemma np_sum_tabulate (n : nat) (F : nat -> npfloat) :
  np_sum (map F (seq 0 n)) = Spec.np_sum_atoms n F.
Proof.
  unfold np_sum. induction n as [| n IH]; [reflexivity |].
  rewrite seq_S, map_app, fold_left_app, IH. reflexivity.
Qed.

Lemma sum_atoms_ext (n : nat) (f g : nat -> R) :
  (forall i, (i < n)%nat -> f i = g i) ->
  Spec.sum_atoms n f = Spec.sum_atoms n g.
Proof.
  induction n as [| n IH]; intros H; [reflexivity |].
  simpl. rewrite IH, (H n) by auto with arith. reflexivity.
Qed.


Lemma sum_atoms_nonneg (n : nat) (f : nat -> R) :
  (forall i, (i < n)%nat -> 0 <= f i) -> 0 <= Spec.sum_atoms n f.
Proof.
  induction n as [| n IH]; intros H; simpl; [lra |].
  specialize (H n (Nat.lt_succ_diag_r n)) as Hn.
  assert (0 <= Spec.sum_atoms n f) by (apply IH; auto with arith). lra.
Qed.

Lemma sum_atoms_pos (n : nat) (f : nat -> R) :
  (0 < n)%nat -> (forall i, (i < n)%nat -> 0 < f i) ->
  0 < Spec.sum_atoms n f.
Proof.
  intros Hn H. destruct n as [| n]; [lia |]. simpl.
  assert (0 <= Spec.sum_atoms n f).
  { apply sum_atoms_nonneg. intros i Hi. apply Rlt_le, H. lia. }
  specialize (H n (Nat.lt_succ_diag_r n)). lra.
Qed.

(** Sums of finite values stay finite. *)
Lemma np_sum_atoms_num (n : nat) (f : nat -> R) :
  Spec.np_sum_atoms n (fun i => Num (f i)) = Num (Spec.sum_atoms n f).
Proof.
  induction n as [| n IH]; [reflexivity |]. simpl. now rewrite IH.
Qed.

(** One [nan] term turns the whole sum into [nan]. *)
Lemma np_sum_atoms_nan (n : nat) (f : nat -> npfloat) (i : nat) :
  (i < n)%nat -> f i = NaN -> Spec.np_sum_atoms n f = NaN.
Proof.
  induction n as [| n IH]; intros Hi Hf; [lia |]. simpl.
  destruct (Nat.eq_dec i n) as [-> | Hne].
  - rewrite Hf. apply np_add_nan_r.
  - rewrite IH; [reflexivity | lia | exact Hf].
Qed.

(** ** Runs *)

Lemma bind_ret_l {A B : Type} (x : A) (k : A -> run B) :
  bind (ret x) k = k x.
Proof. unfold bind. simpl. now destruct (k x). Qed.

Lemma bind_print {B : Type} (label : string) (v : npfloat)
  (k : unit -> run B) :
  bind (print label v) k =
  Run ((label, v) :: stdout (k tt)) (result (k tt)).
Proof. reflexivity. Qed.

Lemma bind_assoc {A B C : Type} (m : run A) (f : A -> run B)
  (g : B -> run C) :
  bind (bind m f) g = bind m (fun x => bind (f x) g).
Proof.
  unfold bind. destruct m as [out [e | x]]; simpl; [reflexivity |].
  destruct (f x) as [out' [e | y]]; simpl; [reflexivity |].
  now rewrite app_assoc.
Qed.

Lemma bind_ext {A B : Type} (m : run A) (k k' : A -> run B) :
  (forall x, k x = k' x) -> bind m k = bind m k'.
Proof.
  intros H. unfold bind. destruct (result m); [reflexivity |].
  now rewrite H.
Qed.

(** The grouping into steps does not change the run. *)
Lemma main_pipeline (fs : filesystem) (args : Args) :
  main fs args = pipeline fs args.
Proof.
  unfold main, pipeline, min_image, get_delta_Q, get_frac_delta_M_proj,
    get_res.
  apply bind_ext. intros r_i. apply bind_ext. intros r_f. cbv zeta.
  rewrite !bind_assoc. apply bind_ext. intros delta_R.
  rewrite bind_ret_l, bind_assoc. apply bind_ext. intros delta_Q2.
  rewrite bind_ret_l. apply bind_ext. intros _.
  destruct (negb (is_unassigned (med args))); [| reflexivity].
  apply bind_ext. intros r_m.
  rewrite !bind_assoc. apply bind_ext. intros delta_M.
  rewrite bind_ret_l, !bind_assoc. apply bind_ext. intros dots.
  now rewrite !bind_assoc.
Qed.

Lemma read_poscar_found (fs : filesystem) (p : option string) (b : bool)
  (poscar : Poscar) :
  fs (format p) = Some poscar ->
  exists syms, read_poscar fs p b = ret (structure poscar, syms).
Proof.
  intros H. unfold read_poscar. rewrite H.
  destruct b; eexists; reflexivity.
Qed.

(** ** The displacement field *)

Lemma min_image_same_length (b a : list vec3) (L : mat3) :
  List.length b = List.length a ->
  min_image b a L = ret (displacement b a L).
Proof.
  intros H. unfold min_image.
  rewrite (broadcast_same_length vsub b a H). simpl shape.
  now rewrite bind_ret_l.
Qed.

Lemma frac_coords_length (s : Structure) :
  List.length (frac_coords s) = List.length (sites s).
Proof. apply length_map. Qed.

Lemma masses_length (s : Structure) :
  List.length (map atomic_mass (species s)) = List.length (sites s).
Proof. unfold species. now rewrite !length_map. Qed.

Lemma displacement_length (b a : list vec3) (L : mat3) :
  List.length b = List.length a ->
  List.length (displacement b a L) = List.length a.
Proof.
  intros H. unfold displacement.
  now rewrite !length_map, zip_with_length, H.
Qed.

(** Row [i] of the array is the displacement of atom [i]. *)
Lemma displacement_table (L : mat3) (a b : Structure) :
  List.length (sites b) = List.length (sites a) ->
  displacement (frac_coords b) (frac_coords a) L =
  map (Spec.atom_disp L a b) (seq 0 (List.length (sites a))).
Proof.
  intros H.
  assert (Hl : List.length (frac_coords b) = List.length (frac_coords a))
    by now rewrite !frac_coords_length.
  rewrite (list_tabulate (displacement _ _ _) Spec.origin).
  rewrite (displacement_length _ _ _ Hl), frac_coords_length.
  apply tabulate_ext. intros i Hi. unfold displacement, Spec.atom_disp.
  rewrite (nth_map_lt _ _ _ Spec.origin)
    by now rewrite length_map, zip_with_length, Hl, frac_coords_length.
  rewrite (nth_map_lt _ _ _ Spec.origin)
    by now rewrite zip_with_length, Hl, frac_coords_length.
  rewrite (nth_zip_with vsub _ _ _ Spec.origin Spec.origin);
    [reflexivity | exact Hl |].
  now rewrite Hl, frac_coords_length.
Qed.

Lemma masses_table (s : Structure) :
  map atomic_mass (species s) =
  map (Spec.mass s) (seq 0 (List.length (sites s))).
Proof.
  rewrite (list_tabulate (map atomic_mass (species s)) 0) at 1.
  now rewrite masses_length.
Qed.

Lemma mass_pos (s : Structure) (i : nat) :
  (i < List.length (sites s))%nat -> 0 < Spec.mass s i.
Proof.
  intros Hi. unfold Spec.mass, species. rewrite map_map.
  pose (d := mkSite (mkSpecies EmptyString 1 Rlt_0_1) Spec.origin).
  rewrite (nth_map_lt _ _ _ d) by exact Hi.
  apply atomic_mass_pos.
Qed.

(** Squared length of a row, as the sum of its squared entries. *)
Lemma vnorm_pow2 (v : vec3) :
  vnorm v ^ 2 = c0 v ^ 2 + c1 v ^ 2 + c2 v ^ 2.
Proof.
  unfold vnorm. rewrite pow2_sqrt; [ring | nra].
Qed.

Lemma vnorm_nonneg (v : vec3) : 0 <= vnorm v.
Proof. apply sqrt_pos. Qed.

Lemma vnorm_0 (v : vec3) : vnorm v = 0 -> v = Spec.origin.
Proof.
  intros H. unfold vnorm in H. apply sqrt_eq_0 in H; [| nra].
  destruct v as [x y z]. simpl in H. unfold Spec.origin.
  assert (x = 0) by nra. assert (y = 0) by nra. assert (z = 0) by nra.
  now subst.
Qed.

Lemma zip_with_tabulate {A B C : Type} (f : A -> B -> C)
  (F : nat -> A) (G : nat -> B) (l : list nat) :
  zip_with f (map F l) (map G l) = map (fun i => f (F i) (G i)) l.
Proof.
  unfold zip_with. induction l as [| i l IH]; [reflexivity |].
  simpl. now rewrite IH.
Qed.

Lemma vdot_comm (a b : vec3) : vdot a b = vdot b a.
Proof. unfold vdot. ring. Qed.

(** ** The scalar distance *)

Lemma weighted_sum_nonneg (s : Structure) (weighted : bool)
  (F : nat -> vec3) :
  0 <= Spec.sum_atoms (List.length (sites s))
         (fun i => (if weighted then Spec.mass s i else 1) * vnorm (F i) ^ 2).
Proof.
  apply sum_atoms_nonneg. intros i Hi.
  apply Rmult_le_pos.
  - destruct weighted; [apply Rlt_le, mass_pos, Hi | lra].
  - apply pow2_ge_0.
Qed.

Lemma get_delta_Q_table (nw : bool) (s : Structure) (F : nat -> vec3) :
  get_delta_Q nw (map atomic_mass (species s))
    (map F (seq 0 (List.length (sites s)))) =
  ret (Num (sqrt (Spec.sum_atoms (List.length (sites s))
         (fun i => (if negb nw then Spec.mass s i else 1)
                   * vnorm (F i) ^ 2)))).
Proof.
  rewrite <- np_sqrt_nonneg by apply weighted_sum_nonneg.
  unfold get_delta_Q. destruct nw; simpl negb; cbv iota.
  - rewrite bind_ret_l, map_map, arr_sum_tabulate. do 2 f_equal.
    apply sum_atoms_ext. intros i _. rewrite vnorm_pow2. simpl. ring.
  - rewrite masses_table, map_map, broadcast_same_length
      by now rewrite !length_map.
    simpl shape. rewrite bind_ret_l, zip_with_tabulate, arr_sum_tabulate.
    do 2 f_equal. apply sum_atoms_ext. intros i _.
    rewrite vnorm_pow2. simpl. ring.
Qed.

(** ** The projection *)

Lemma get_frac_delta_M_proj_table (n : nat) (F G : nat -> vec3) :
  get_frac_delta_M_proj (map F (seq 0 n)) (map G (seq 0 n)) =
  ret (map (fun i => Spec.atom_fraction (F i) (G i)) (seq 0 n)).
Proof.
  unfold get_frac_delta_M_proj.
  rewrite broadcast_same_length by now rewrite !length_map.
  simpl shape. rewrite bind_ret_l, zip_with_tabulate, !map_map.
  rewrite broadcast_same_length by now rewrite !length_map.
  simpl shape. rewrite bind_ret_l, zip_with_tabulate.
  rewrite broadcast_same_length by now rewrite !length_map.
  simpl shape. rewrite zip_with_tabulate.
  f_equal. apply tabulate_ext. intros i _.
  unfold Spec.atom_fraction. now rewrite vdot_comm.
Qed.

Lemma sqrt_masses_table (s : Structure) :
  map np_sqrt (map atomic_mass (species s)) =
  map (fun i => Num (sqrt (Spec.mass s i))) (seq 0 (List.length (sites s))).
Proof.
  rewrite masses_table, map_map. apply tabulate_ext. intros i Hi.
  apply np_sqrt_nonneg, Rlt_le, mass_pos, Hi.
Qed.

Lemma sum_sqrt_masses_pos (s : Structure) :
  sites s <> [] ->
  0 < Spec.sum_atoms (List.length (sites s)) (fun i => sqrt (Spec.mass s i)).
Proof.
  intros Hne. apply sum_atoms_pos.
  - destruct (sites s); [congruence | simpl; lia].
  - intros i Hi. apply sqrt_lt_R0, mass_pos, Hi.
Qed.

Lemma get_res_table (nw : bool) (s : Structure) (f : nat -> npfloat) :
  sites s <> [] ->
  get_res nw (map atomic_mass (species s))
    (map f (seq 0 (List.length (sites s)))) =
  ret (if nw then Spec.mean (List.length (sites s)) f
       else Spec.weighted_mean (List.length (sites s))
              (fun i => sqrt (Spec.mass s i)) f).
Proof.
  intros Hne. unfold get_res. destruct nw.
  - unfold np_average, Spec.mean.
    now rewrite np_sum_tabulate, length_map, length_seq.
  - unfold np_average_weights. rewrite sqrt_masses_table.
    rewrite !length_map, Nat.eqb_refl. simpl negb. cbv iota.
    rewrite np_sum_tabulate, np_sum_atoms_num. simpl eq_zero.
    rewrite is_zero_false
      by (pose proof (sum_sqrt_masses_pos s Hne); lra).
    now rewrite zip_with_tabulate, np_sum_tabulate.
Qed.

(** ** Runs on structures with matching atom counts *)

Section MatchingRun.

Variable fs : filesystem.
Variable args : Args.
Variables poscar_i poscar_f : Poscar.

Hypothesis found_i : fs (init args) = Some poscar_i.
Hypothesis found_f : fs (fin args) = Some poscar_f.
Hypothesis same_count :
  List.length (sites (structure poscar_f)) =
  List.length (sites (structure poscar_i)).

Lemma main_without_med :
  is_unassigned (med args) = true ->
  main fs args =
  Run [("Delta Q:"%string,
        Num (Spec.delta_Q (negb (no_weight args))
               (structure poscar_i) (structure poscar_f)))]
      (inr tt).
Proof.
  intros Hm. rewrite main_pipeline. unfold pipeline.
  destruct (read_poscar_found fs (Some (init args)) false _ found_i)
    as [s1 ->].
  destruct (read_poscar_found fs (Some (fin args)) true _ found_f)
    as [s2 ->].
  rewrite !bind_ret_l. simpl fst.
  rewrite min_image_same_length by now rewrite !frac_coords_length.
  rewrite bind_ret_l, displacement_table by exact same_count.
  rewrite get_delta_Q_table, bind_ret_l, Hm. reflexivity.
Qed.

Lemma main_with_med (poscar_m : Poscar) :
  is_unassigned (med args) = false ->
  fs (format (med args)) = Some poscar_m ->
  List.length (sites (structure poscar_m)) =
  List.length (sites (structure poscar_i)) ->
  sites (structure poscar_i) <> [] ->
  main fs args =
  Run [("Delta Q:"%string,
        Num (Spec.delta_Q (negb (no_weight args))
               (structure poscar_i) (structure poscar_f)));
       ("Projected delta Q:"%string,
        np_mul
          (Num (Spec.delta_Q (negb (no_weight args))
                  (structure poscar_i) (structure poscar_f)))
          (Spec.average (negb (no_weight args)) (structure poscar_i)
             (structure poscar_f) (structure poscar_m)));
       ("Fractional displacement:"%string,
        Spec.average (negb (no_weight args)) (structure poscar_i)
          (structure poscar_f) (structure poscar_m))]
      (inr tt).
Proof.
  intros Hm found_m Hcount Hne. rewrite main_pipeline. unfold pipeline.
  destruct (read_poscar_found fs (Some (init args)) false _ found_i)
    as [s1 ->].
  destruct (read_poscar_found fs (Some (fin args)) true _ found_f)
    as [s2 ->].
  destruct (read_poscar_found fs (med args) false _ found_m) as [s3 ->].
  rewrite !bind_ret_l. simpl fst.
  rewrite min_image_same_length by now rewrite !frac_coords_length.
  rewrite bind_ret_l, displacement_table by exact same_count.
  rewrite get_delta_Q_table, bind_ret_l, Hm. simpl negb. cbv iota.
  rewrite bind_print, bind_ret_l. simpl fst.
  rewrite min_image_same_length by now rewrite !frac_coords_length.
  rewrite bind_ret_l, displacement_table by exact Hcount.
  rewrite get_frac_delta_M_proj_table, bind_ret_l.
  rewrite get_res_table by exact Hne.
  rewrite bind_ret_l. unfold Spec.average.
  destruct (no_weight args); reflexivity.
Qed.

End MatchingRun.

(** ** The minimum-image wrap *)




Lemma wrap_differs_by_integer (x : R) : exists k : Z, wrap x = x + IZR k.
Proof.
  exists (- Zfloor (x + 0.5))%Z. rewrite wrap_floor, opp_IZR. ring.
Qed.

(** No periodic image is shorter than the wrapped one. *)
Lemma wrap_shortest (x : R) (n : Z) : Rabs (wrap x) <= Rabs (x + IZR n).
Proof.
  pose proof (wrap_bounds x) as Hb. rewrite wrap_floor in *.
  set (k := Zfloor (x + 0.5)) in *.
  replace (x + IZR n) with (x - IZR k + IZR (k + n))
    by (rewrite plus_IZR; ring).
  destruct (Z.eq_dec (k + n) 0) as [-> | Hne].
  - rewrite Rplus_0_r. apply Rle_refl.
  - assert (Hj : (1 <= k + n \/ k + n <= -1)%Z) by lia.
    destruct Hj as [Hj | Hj]; apply IZR_le in Hj;
      unfold Rabs; repeat destruct Rcase_abs; lra.
Qed.

(** C3 (as amended). For every raw fractional difference the wrapped value
    lies in [-0.5, 0.5): the lower end is attained (at raw = 0.5) and the
    upper end never is.  The wrapped value differs from the raw one by an
    integer, and no periodic image [raw + n] has smaller magnitude. *)
Theorem wrap_minimum_image (raw : R) :
  -0.5 <= wrap raw < 0.5
  /\ (exists k : Z, wrap raw = raw + IZR k)
  /\ (forall n : Z, Rabs (wrap raw) <= Rabs (raw + IZR n))
  /\ wrap 0.5 = -0.5.
Proof.
  repeat split.
  - apply wrap_bounds.
  - apply wrap_bounds.
  - apply wrap_differs_by_integer.
  - apply wrap_shortest.
  - apply wrap_half.
Qed.

(** C3 (as stated) fails: the raw difference 0.5 wraps to -0.5, which is
    outside (-0.5, 0.5]. *)
Lemma wrap_range_counterexample :
  wrap 0.5 = -0.5 /\ ~ (-0.5 < wrap 0.5 <= 0.5).
Proof.
  split; [apply wrap_half |]. rewrite wrap_half. lra.
Qed.

(** ** The scalar distance printed by [main] *)

Lemma printed_first (label : string) (v : npfloat) (out : list line) :
  printed label ((label, v) :: out) = Some v.
Proof. unfold printed. simpl. now rewrite String.eqb_refl. Qed.

Lemma main_prints_delta_Q (fs : filesystem) (args : Args)
  (poscar_i poscar_f : Poscar) :
  fs (init args) = Some poscar_i ->
  fs (fin args) = Some poscar_f ->
  List.length (sites (structure poscar_f)) =
  List.length (sites (structure poscar_i)) ->
  exists out r,
    main fs args =
    Run (("Delta Q:"%string,
          Num (Spec.delta_Q (negb (no_weight args))
                 (structure poscar_i) (structure poscar_f))) :: out) r.
Proof.
  intros found_i found_f same_count. rewrite main_pipeline.
  unfold pipeline.
  destruct (read_poscar_found fs (Some (init args)) false _ found_i)
    as [s1 ->].
  destruct (read_poscar_found fs (Some (fin args)) true _ found_f)
    as [s2 ->].
  rewrite !bind_ret_l. simpl fst.
  rewrite min_image_same_length by now rewrite !frac_coords_length.
  rewrite bind_ret_l, displacement_table by exact same_count.
  rewrite get_delta_Q_table, bind_ret_l, bind_print.
  eexists. eexists. reflexivity.
Qed.



Lemma sum_atoms_zero (n : nat) (f : nat -> R) :
  (forall i, (i < n)%nat -> f i = 0) -> Spec.sum_atoms n f = 0.
Proof.
  intros H. rewrite (sum_atoms_ext n f (fun _ => 0) H).
  induction n as [| n IH]; simpl; [reflexivity |].
  rewrite IH; [lra | auto].
Qed.

Lemma vnorm_origin : vnorm Spec.origin = 0.
Proof.
  unfold vnorm, Spec.origin. simpl.
  replace (0 * 0 + 0 * 0 + 0 * 0) with 0 by ring. apply sqrt_0.
Qed.

Lemma np_dot_origin (L : mat3) : np_dot Spec.origin L = Spec.origin.
Proof. unfold np_dot, Spec.origin. simpl. f_equal; ring. Qed.

(** An atom that sits at the same fractional position in both structures
    has no displacement. *)
Lemma atom_disp_same (L : mat3) (a b : Structure) (i : nat) :
  Spec.position b i = Spec.position a i ->
  Spec.atom_disp L a b i = Spec.origin.
Proof.
  intros H. unfold Spec.atom_disp. rewrite H.
  replace (vmap wrap (vsub (Spec.position a i) (Spec.position a i)))
    with Spec.origin; [apply np_dot_origin |].
  unfold vmap, vsub, Spec.origin. simpl.
  rewrite !Rminus_diag, wrap_0. reflexivity.
Qed.

(** C7. When the initial and final structures have the same fractional
    coordinates, [delta_Q] is exactly zero, weighted or not. *)
Theorem identical_structures_delta_Q_zero (fs : filesystem) (args : Args)
  (poscar_i poscar_f : Poscar) :
  fs (init args) = Some poscar_i ->
  fs (fin args) = Some poscar_f ->
  frac_coords (structure poscar_f) = frac_coords (structure poscar_i) ->
  printed "Delta Q:" (stdout (main fs args)) = Some (Num 0).
Proof.
  intros found_i found_f Hsame.
  assert (same_count : List.length (sites (structure poscar_f)) =
                       List.length (sites (structure poscar_i))).
  { now rewrite <- !frac_coords_length, Hsame. }
  destruct (main_prints_delta_Q fs args _ _ found_i found_f same_count)
    as (out & r & ->).
  simpl stdout. rewrite printed_first. do 2 f_equal.
  unfold Spec.delta_Q. rewrite sum_atoms_zero; [apply sqrt_0 |].
  intros i _. rewrite atom_disp_same.
  - rewrite vnorm_origin. ring.
  - unfold Spec.position. now rewrite Hsame.
Qed.

(** ** The medium-structure projection *)

Lemma is_unassigned_spec (m : option string) :
  is_unassigned m = true <-> m = Some "unassigned"%string.
Proof.
  destruct m as [s |]; simpl.
  - rewrite String.eqb_eq. split; congruence.
  - split; discriminate.
Qed.

Lemma not_unassigned (m : option string) :
  m <> Some "unassigned"%string -> is_unassigned m = false.
Proof.
  intros H. destruct (is_unassigned m) eqn:E; [| reflexivity].
  now apply is_unassigned_spec in E.
Qed.

Lemma projection_arrays (a b m : Structure) :
  List.length (sites b) = List.length (sites a) ->
  List.length (sites m) = List.length (sites a) ->
  let L := matrix (lattice a) in
  let rows := seq 0 (List.length (sites a)) in
  min_image (frac_coords b) (frac_coords a) L
    = ret (map (Spec.atom_disp L a b) rows)
  /\ min_image (frac_coords m) (frac_coords a) L
    = ret (map (Spec.atom_disp L a m) rows)
  /\ get_frac_delta_M_proj (map (Spec.atom_disp L a b) rows)
       (map (Spec.atom_disp L a m) rows)
    = ret (map (Spec.fraction a b m) rows).
Proof.
  intros Hb Hm L rows. repeat split.
  - rewrite min_image_same_length by now rewrite !frac_coords_length.
    now rewrite displacement_table.
  - rewrite min_image_same_length by now rewrite !frac_coords_length.
    now rewrite displacement_table.
  - apply get_frac_delta_M_proj_table.
Qed.


Lemma fraction_zero_path (a b m : Structure) (i : nat) :
  vnorm (Spec.atom_disp (matrix (lattice a)) a b i) = 0 ->
  Spec.fraction a b m i = NaN.
Proof.
  intros H. unfold Spec.fraction, Spec.atom_fraction. rewrite H.
  apply vnorm_0 in H. rewrite H.
  replace (vdot _ Spec.origin) with 0
    by (unfold vdot, Spec.origin; simpl; ring).
  now rewrite np_div_0_0.
Qed.

Lemma average_nan (weighted : bool) (a b m : Structure) (i : nat) :
  (i < List.length (sites a))%nat ->
  Spec.fraction a b m i = NaN ->
  Spec.average weighted a b m = NaN.
Proof.
  intros Hi Hnan. unfold Spec.average, Spec.weighted_mean, Spec.mean.
  destruct weighted.
  - rewrite (np_sum_atoms_nan _ _ i Hi); [reflexivity |].
    now rewrite Hnan.
  - now rewrite (np_sum_atoms_nan _ _ i Hi Hnan).
Qed.

Lemma nth_error_tabulate {A : Type} (F : nat -> A) (n i : nat) :
  (i < n)%nat -> nth_error (map F (seq 0 n)) i = Some (F i).
Proof.
  intros Hi. rewrite nth_error_map, nth_error_seq.
  apply Nat.ltb_lt in Hi. now rewrite Hi.
Qed.

(** C4. An atom whose path vector has zero length makes [dots / norm] a
    division of zero by zero: nothing guards it, the entry of that atom is
    not-a-number, and so are the average and both printed projections. *)
Theorem zero_path_vector_poisons_average (fs : filesystem) (args : Args)
  (poscar_i poscar_f poscar_m : Poscar) (i : nat) :
  fs (init args) = Some poscar_i ->
  fs (fin args) = Some poscar_f ->
  fs (format (med args)) = Some poscar_m ->
  List.length (sites (structure poscar_f)) =
  List.length (sites (structure poscar_i)) ->
  List.length (sites (structure poscar_m)) =
  List.length (sites (structure poscar_i)) ->
  med args <> Some "unassigned"%string ->
  (i < List.length (sites (structure poscar_i)))%nat ->
  let a := structure poscar_i in
  let L := matrix (lattice a) in
  vnorm (Spec.atom_disp L a (structure poscar_f) i) = 0 ->
  (exists delta_R delta_M frac_delta_M_proj,
      min_image (frac_coords (structure poscar_f)) (frac_coords a) L
        = ret delta_R
      /\ min_image (frac_coords (structure poscar_m)) (frac_coords a) L
        = ret delta_M
      /\ np_div (Num (vdot (nth i delta_R Spec.origin)
                           (nth i delta_M Spec.origin)))
                (Num (vnorm (nth i delta_R Spec.origin))) = NaN
      /\ get_frac_delta_M_proj delta_R delta_M = ret frac_delta_M_proj
      /\ nth_error frac_delta_M_proj i = Some NaN)
  /\ exists delta_Q,
      main fs args =
      Run [("Delta Q:"%string, delta_Q);
           ("Projected delta Q:"%string, NaN);
           ("Fractional displacement:"%string, NaN)] (inr tt).
Proof.
  intros found_i found_f found_m Hf Hm Hmed Hi a L Hzero.
  pose proof (fraction_zero_path a _ (structure poscar_m) i Hzero) as Hnan.
  split.
  - destruct (projection_arrays a _ _ Hf Hm) as (H1 & H2 & H3).
    do 3 eexists. split; [exact H1 |]. split; [exact H2 |].
    split; [| split; [exact H3 |]].
    + rewrite !(nth_map_lt _ _ _ 0%nat) by now rewrite length_seq.
      rewrite seq_nth by exact Hi. simpl. fold a L. rewrite Hzero.
      apply vnorm_0 in Hzero. rewrite Hzero.
      replace (vdot Spec.origin _) with 0
        by (unfold vdot, Spec.origin; simpl; ring).
      apply np_div_0_0.
    + rewrite nth_error_tabulate by exact Hi. now rewrite Hnan.
  - assert (Hne : sites a <> []).
    { intros E. unfold a in E. rewrite E in Hi. simpl in Hi. lia. }
    eexists.
    rewrite (main_with_med fs args _ _ found_i found_f Hf poscar_m
               (not_unassigned _ Hmed) found_m Hm Hne).
    rewrite (average_nan _ _ _ _ i Hi Hnan), np_mul_nan_r. reflexivity.
Qed.

(** ** What is printed, and what is read *)

Lemma main_med_missing (fs : filesystem) (args : Args)
  (poscar_i poscar_f : Poscar) :
  fs (init args) = Some poscar_i ->
  fs (fin args) = Some poscar_f ->
  List.length (sites (structure poscar_f)) =
  List.length (sites (structure poscar_i)) ->
  is_unassigned (med args) = false ->
  fs (format (med args)) = None ->
  main fs args =
  Run [("Delta Q:"%string,
        Num (Spec.delta_Q (negb (no_weight args))
               (structure poscar_i) (structure poscar_f)))]
      (inl (FileError (format (med args)))).
Proof.
  intros found_i found_f same_count Hm Hnone. rewrite main_pipeline.
  unfold pipeline.
  destruct (read_poscar_found fs (Some (init args)) false _ found_i)
    as [s1 ->].
  destruct (read_poscar_found fs (Some (fin args)) true _ found_f)
    as [s2 ->].
  rewrite !bind_ret_l. simpl fst.
  rewrite min_image_same_length by now rewrite !frac_coords_length.
  rewrite bind_ret_l, displacement_table by exact same_count.
  rewrite get_delta_Q_table, bind_ret_l, Hm.
  unfold read_poscar. rewrite Hnone. reflexivity.
Qed.

(** C8. The projection runs exactly when [--med] is not the sentinel
    ["unassigned"], which is its default.  With the sentinel only the
    "Delta Q:" line is printed; otherwise the medium file is read and the
    run prints three lines, "Delta Q:", "Projected delta Q:" and
    "Fractional displacement:", in that order. *)
Theorem medium_sentinel_controls_output (fs : filesystem) (args : Args)
  (poscar_i poscar_f : Poscar) :
  fs (init args) = Some poscar_i ->
  fs (fin args) = Some poscar_f ->
  List.length (sites (structure poscar_f)) =
  List.length (sites (structure poscar_i)) ->
  med default_args = Some "unassigned"%string
  /\ (med args = Some "unassigned"%string ->
      exists delta_Q,
        main fs args = Run [("Delta Q:"%string, delta_Q)] (inr tt))
  /\ (med args <> Some "unassigned"%string ->
      forall poscar_m,
        fs (format (med args)) = Some poscar_m ->
        List.length (sites (structure poscar_m)) =
        List.length (sites (structure poscar_i)) ->
        sites (structure poscar_i) <> [] ->
        exists delta_Q projected res,
          main fs args =
          Run [("Delta Q:"%string, delta_Q);
               ("Projected delta Q:"%string, projected);
               ("Fractional displacement:"%string, res)] (inr tt))
  /\ (med args <> Some "unassigned"%string ->
      fs (format (med args)) = None ->
      exists delta_Q,
        main fs args =
        Run [("Delta Q:"%string, delta_Q)]
            (inl (FileError (format (med args))))).
Proof.
  intros found_i found_f same_count. split; [reflexivity |].
  split; [| split].
  - intros Hm. apply is_unassigned_spec in Hm. eexists.
    apply (main_without_med fs args _ _ found_i found_f same_count Hm).
  - intros Hm poscar_m found_m Hcount Hne. do 3 eexists.
    apply (main_with_med fs args _ _ found_i found_f same_count poscar_m
             (not_unassigned _ Hm) found_m Hcount Hne).
  - intros Hm Hnone. eexists.
    apply (main_med_missing fs args _ _ found_i found_f same_count
             (not_unassigned _ Hm) Hnone).
Qed.

(** C10. Both conversions to Cartesian coordinates use the lattice of the
    initial structure.  The lattices of the final and of the medium
    structure are never read: replacing them changes nothing in the run. *)
Theorem only_initial_lattice_is_read (fs fs' : filesystem) (args : Args) :
  fs' (init args) = fs (init args) ->
  same_sites (fs (fin args)) (fs' (fin args)) ->
  same_sites (fs (format (med args))) (fs' (format (med args))) ->
  main fs' args = main fs args.
Proof.
  intros Hi Hf Hm. rewrite !main_pipeline.
  unfold pipeline, read_poscar. simpl format. rewrite Hi.
  destruct (fs (init args)) as [poscar_i |]; [| reflexivity].
  cbv zeta. rewrite !bind_ret_l. simpl fst.
  destruct (fs (fin args)) as [poscar_f |],
           (fs' (fin args)) as [poscar_f' |];
    simpl in Hf; try contradiction; [| reflexivity].
  rewrite !bind_ret_l. simpl fst. unfold frac_coords. rewrite Hf.
  apply bind_ext. intros delta_R.
  apply bind_ext. intros delta_Q.
  apply bind_ext. intros _.
  destruct (negb (is_unassigned (med args))); [| reflexivity].
  destruct (fs (format (med args))) as [poscar_m |],
           (fs' (format (med args))) as [poscar_m' |];
    simpl in Hm; try contradiction; [| reflexivity].
  rewrite !bind_ret_l. simpl fst. now rewrite Hm.
Qed.

(** ** Exchanging the initial and the final structure *)





(** ** A medium structure halfway along the path *)







(** ** Worked runs *)

Import Example.

Ltac wrap_at x k := rewrite (wrap_image x k) by lra.

(** [delta_Q] of two one-atom structures. *)
Lemma delta_Q_one_atom (weighted : bool) (L L' : Lattice) (sp sp' : Species)
  (x y z x' y' z' : R) :
  Spec.delta_Q weighted (structure (one_atom L sp x y z))
    (structure (one_atom L' sp' x' y' z')) =
  sqrt ((if weighted then atomic_mass sp else 1)
        * vnorm (np_dot (V3 (wrap (x' - x)) (wrap (y' - y)) (wrap (z' - z)))
                   (matrix L)) ^ 2).
Proof.
  unfold Spec.delta_Q, Spec.atom_disp, Spec.position, Spec.mass, vmap, vsub.
  destruct weighted; simpl; f_equal; ring.
Qed.

Lemma printed_delta_Q (fs : filesystem) (args : Args)
  (poscar_i poscar_f : Poscar) :
  fs (init args) = Some poscar_i ->
  fs (fin args) = Some poscar_f ->
  List.length (sites (structure poscar_f)) =
  List.length (sites (structure poscar_i)) ->
  printed "Delta Q:" (stdout (main fs args)) =
  Some (Num (Spec.delta_Q (negb (no_weight args))
               (structure poscar_i) (structure poscar_f))).
Proof.
  intros found_i found_f same_count.
  destruct (main_prints_delta_Q fs args _ _ found_i found_f same_count)
    as (out & r & ->).
  apply printed_first.
Qed.






(** The atom of [rest] has a path vector of zero length to itself. *)
Lemma rest_zero_path :
  vnorm (Spec.atom_disp (matrix (lattice (structure rest)))
           (structure rest) (structure rest) 0) = 0.
Proof. rewrite atom_disp_same by reflexivity. apply vnorm_origin. Qed.





(** *** Exchanging the structures: where the symmetry breaks *)


(** *** A medium structure at the midpoint: where one half is not reported *)


(** *** Two runs from the description

    One carbon atom moved by the fractional vector (0.1, 0, 0) in a cubic
    cell of edge 10: the displacement has length 1, so the distance is the
    square root of the mass, and 1 without weighting. *)

Example moved_carbon_weighted :
  printed "Delta Q:"
    (stdout (main (files (one_atom (cubic 10) carbon 0 0 0)
                     (one_atom (cubic 10) carbon 0.1 0 0) rest)
               (without_med false)))
  = Some (Num (sqrt 12.0107)).
Proof.
  rewrite (printed_delta_Q _ (without_med false)
             (one_atom (cubic 10) carbon 0 0 0)
             (one_atom (cubic 10) carbon 0.1 0 0)) by reflexivity.
  rewrite delta_Q_one_atom. simpl negb. cbv iota.
  rewrite vnorm_pow2. unfold np_dot. simpl.
  wrap_at (0.1 - 0) 0%Z. wrap_at (0 - 0) 0%Z.
  do 3 f_equal. lra.
Qed.

Example moved_carbon_unweighted :
  printed "Delta Q:"
    (stdout (main (files (one_atom (cubic 10) carbon 0 0 0)
                     (one_atom (cubic 10) carbon 0.1 0 0) rest)
               (without_med true)))
  = Some (Num 1).
Proof.
  rewrite (printed_delta_Q _ (without_med true)
             (one_atom (cubic 10) carbon 0 0 0)
             (one_atom (cubic 10) carbon 0.1 0 0)) by reflexivity.
  rewrite delta_Q_one_atom. simpl negb. cbv iota.
  rewrite vnorm_pow2. unfold np_dot. simpl.
  wrap_at (0.1 - 0) 0%Z. wrap_at (0 - 0) 0%Z.
  do 2 f_equal. transitivity (sqrt 1); [f_equal; lra | apply sqrt_1].
Qed.

(** *** The statements at work *)


(** An atom at rest: the distance is zero. *)
Lemma identical_structures_delta_Q_zero_witness :
  frac_coords (structure rest) = frac_coords (structure rest)
  /\ printed "Delta Q:" (stdout (main (files rest rest rest) default_args))
     = Some (Num 0).
Proof.
  split; [reflexivity |].
  exact (identical_structures_delta_Q_zero (files rest rest rest)
           default_args rest rest eq_refl eq_refl eq_refl).
Defined.

Lemma with_med_not_unassigned (nw : bool) :
  med (with_med nw) <> Some "unassigned"%string.
Proof. discriminate. Qed.

Lemma one_atom_nonempty (L : Lattice) (sp : Species) (x y z : R) :
  sites (structure (one_atom L sp x y z)) <> [].
Proof. discriminate. Qed.


(** An atom at rest, with a medium file: both projections are [nan]. *)
Lemma zero_path_vector_poisons_average_witness :
  vnorm (Spec.atom_disp (matrix (lattice (structure rest)))
           (structure rest) (structure rest) 0) = 0
  /\ exists delta_Q,
      main (files rest rest rest) (with_med false) =
      Run [("Delta Q:"%string, delta_Q);
           ("Projected delta Q:"%string, NaN);
           ("Fractional displacement:"%string, NaN)] (inr tt).
Proof.
  split; [exact rest_zero_path |].
  exact (proj2 (zero_path_vector_poisons_average (files rest rest rest)
                  (with_med false) rest rest rest 0
                  eq_refl eq_refl eq_refl eq_refl eq_refl
                  (with_med_not_unassigned false) (Nat.lt_0_succ 0)
                  rest_zero_path)).
Defined.



(** One line without a medium file, three lines with one. *)
Lemma medium_sentinel_controls_output_witness :
  (exists delta_Q,
      main (files near_i near_f near_m) default_args =
      Run [("Delta Q:"%string, delta_Q)] (inr tt))
  /\ exists delta_Q projected res,
      main (files near_i near_f near_m) (with_med false) =
      Run [("Delta Q:"%string, delta_Q);
           ("Projected delta Q:"%string, projected);
           ("Fractional displacement:"%string, res)] (inr tt).
Proof.
  split.
  - destruct (medium_sentinel_controls_output (files near_i near_f near_m)
                default_args near_i near_f eq_refl eq_refl eq_refl)
      as (_ & H & _).
    exact (H eq_refl).
  - destruct (medium_sentinel_controls_output (files near_i near_f near_m)
                (with_med false) near_i near_f eq_refl eq_refl eq_refl)
      as (_ & _ & H & _).
    exact (H (with_med_not_unassigned false) near_m eq_refl eq_refl
             (one_atom_nonempty _ _ _ _ _)).
Defined.

(** The same run with the final and medium files written in other cells. *)
Lemma only_initial_lattice_is_read_witness :
  main (files near_i near_f' near_m') (with_med false)
  = main (files near_i near_f near_m) (with_med false).
Proof.
  exact (only_initial_lattice_is_read (files near_i near_f near_m)
           (files near_i near_f' near_m') (with_med false)
           eq_refl eq_refl eq_refl).
Defined.

(** * Further properties of the script *)

(** ** Failures and what is printed before them *)

Lemma broadcast_mismatch {A B C : Type} (f : A -> B -> C)
  (a : list A) (b : list B) :
  List.length a <> List.length b ->
  List.length a <> 1%nat -> List.length b <> 1%nat ->
  broadcast f a b = None.
Proof.
  intros Hab Ha Hb. unfold broadcast.
  apply Nat.eqb_neq in Hab. rewrite Hab.
  destruct a as [| x [| x' a]]; destruct b as [| y [| y' b]];
    simpl in *; congruence.
Qed.

(** Atom counts are not validated, but arrays of different length that
    NumPy cannot broadcast (neither has a single row) stop the run with a
    shape error before anything is printed. *)
Theorem mismatched_atom_counts_raise (fs : filesystem) (args : Args)
  (poscar_i poscar_f : Poscar) :
  fs (init args) = Some poscar_i ->
  fs (fin args) = Some poscar_f ->
  List.length (sites (structure poscar_f)) <>
  List.length (sites (structure poscar_i)) ->
  List.length (sites (structure poscar_f)) <> 1%nat ->
  List.length (sites (structure poscar_i)) <> 1%nat ->
  main fs args = Run [] (inl ValueError).
Proof.
  intros found_i found_f Hne Hf Hi. unfold main.
  destruct (read_poscar_found fs (Some (init args)) false _ found_i)
    as [s1 ->].
  destruct (read_poscar_found fs (Some (fin args)) true _ found_f)
    as [s2 ->].
  rewrite !bind_ret_l. simpl fst.
  rewrite broadcast_mismatch by now rewrite !frac_coords_length.
  reflexivity.
Qed.

(** Three atoms against two. *)
Lemma mismatched_atom_counts_raise_witness :
  main (files pair_i triple rest) default_args = Run [] (inl ValueError).
Proof.
  apply (mismatched_atom_counts_raise (files pair_i triple rest)
           default_args pair_i triple eq_refl eq_refl);
    simpl; discriminate.
Defined.

(** A medium file whose length cannot be broadcast against the initial one
    is noticed only after the distance has been printed: the run ends with
    a shape error and the one line "Delta Q:". *)
Theorem mismatched_medium_raises_after_delta_Q (fs : filesystem)
  (args : Args) (poscar_i poscar_f poscar_m : Poscar) :
  fs (init args) = Some poscar_i ->
  fs (fin args) = Some poscar_f ->
  fs (format (med args)) = Some poscar_m ->
  List.length (sites (structure poscar_f)) =
  List.length (sites (structure poscar_i)) ->
  med args <> Some "unassigned"%string ->
  List.length (sites (structure poscar_m)) <>
  List.length (sites (structure poscar_i)) ->
  List.length (sites (structure poscar_m)) <> 1%nat ->
  List.length (sites (structure poscar_i)) <> 1%nat ->
  main fs args =
  Run [("Delta Q:"%string,
        Num (Spec.delta_Q (negb (no_weight args))
               (structure poscar_i) (structure poscar_f)))]
      (inl ValueError).
Proof.
  intros found_i found_f found_m same_count Hmed Hne Hm Hi.
  rewrite main_pipeline. unfold pipeline.
  destruct (read_poscar_found fs (Some (init args)) false _ found_i)
    as [s1 ->].
  destruct (read_poscar_found fs (Some (fin args)) true _ found_f)
    as [s2 ->].
  destruct (read_poscar_found fs (med args) false _ found_m) as [s3 ->].
  rewrite !bind_ret_l. simpl fst.
  rewrite min_image_same_length by now rewrite !frac_coords_length.
  rewrite bind_ret_l, displacement_table by exact same_count.
  rewrite get_delta_Q_table, bind_ret_l, (not_unassigned _ Hmed).
  simpl negb. cbv iota. rewrite bind_print, bind_ret_l. simpl fst.
  unfold min_image.
  rewrite broadcast_mismatch by now rewrite !frac_coords_length.
  reflexivity.
Qed.

(** A three-atom medium file for a two-atom pair. *)
Lemma mismatched_medium_raises_after_delta_Q_witness :
  exists delta_Q,
    main (files pair_i pair_f triple) (with_med false) =
    Run [("Delta Q:"%string, delta_Q)] (inl ValueError).
Proof.
  eexists.
  apply (mismatched_medium_raises_after_delta_Q (files pair_i pair_f triple)
           (with_med false) pair_i pair_f triple
           eq_refl eq_refl eq_refl eq_refl (with_med_not_unassigned false));
    simpl; discriminate.
Defined.

(** ** Files of different length that NumPy broadcasts *)

Lemma broadcast_right_single {A B C : Type} (f : A -> B -> C)
  (a : list A) (y : B) :
  List.length a <> 1%nat ->
  broadcast f a [y] = Some (map (fun x => f x y) a).
Proof.
  intros Ha. unfold broadcast.
  assert (H : Nat.eqb (List.length a) (List.length [y]) = false)
    by (apply Nat.eqb_neq; exact Ha).
  rewrite H. destruct a as [| x [| x' a]]; simpl in *; congruence.
Qed.

Lemma broadcast_left_single {A B C : Type} (f : A -> B -> C)
  (x : A) (b : list B) :
  List.length b <> 1%nat ->
  broadcast f [x] b = Some (map (f x) b).
Proof.
  intros Hb. unfold broadcast.
  assert (H : Nat.eqb (List.length [x]) (List.length b) = false)
    by (apply Nat.eqb_neq; simpl; congruence).
  now rewrite H.
Qed.

Lemma single_site (s : Structure) :
  List.length (sites s) = 1%nat ->
  frac_coords s = [Spec.position s 0]
  /\ map atomic_mass (species s) = [Spec.mass s 0].
Proof.
  intros H. unfold frac_coords, species, Spec.position, Spec.mass,
    frac_coords, species.
  destruct (sites s) as [| x [| y l]]; simpl in H; try discriminate.
  split; reflexivity.
Qed.

(** The array [delta_R] when the initial file has a single atom: every
    atom of the other file is measured from that one atom. *)
Lemma min_image_single_initial (L : mat3) (a b : Structure) :
  List.length (sites a) = 1%nat ->
  List.length (sites b) <> 1%nat ->
  min_image (frac_coords b) (frac_coords a) L =
  ret (map (fun i => np_dot (vmap wrap (vsub (Spec.position b i)
                                            (Spec.position a 0))) L)
         (seq 0 (List.length (sites b)))).
Proof.
  intros Ha Hb. destruct (single_site a Ha) as [-> _].
  unfold min_image.
  rewrite broadcast_right_single by now rewrite frac_coords_length.
  simpl shape. rewrite bind_ret_l, !map_map.
  rewrite (list_tabulate (frac_coords b) Spec.origin) at 1.
  now rewrite map_map, frac_coords_length.
Qed.

(** With a one-atom initial file, a longer final file and a medium file
    as long as the final one, the weighted average is the first to
    object: its weights have one entry for several values, and the run ends with a type error after the
    distance was printed.  Under [--no_weight] the same files run through
    and print three lines. *)
Theorem single_initial_atom_breaks_weighted_average (fs : filesystem)
  (args : Args) (poscar_i poscar_f poscar_m : Poscar) :
  fs (init args) = Some poscar_i ->
  fs (fin args) = Some poscar_f ->
  fs (format (med args)) = Some poscar_m ->
  List.length (sites (structure poscar_i)) = 1%nat ->
  List.length (sites (structure poscar_f)) <> 1%nat ->
  List.length (sites (structure poscar_m)) =
  List.length (sites (structure poscar_f)) ->
  med args <> Some "unassigned"%string ->
  (exists delta_Q,
      main fs (set_no_weight false args) =
      Run [("Delta Q:"%string, delta_Q)] (inl TypeError))
  /\ exists delta_Q projected res,
      main fs (set_no_weight true args) =
      Run [("Delta Q:"%string, delta_Q);
           ("Projected delta Q:"%string, projected);
           ("Fractional displacement:"%string, res)] (inr tt).
Proof.
  intros found_i found_f found_m Hi Hf Hm Hmed.
  assert (Hm1 : List.length (sites (structure poscar_m)) <> 1%nat)
    by congruence.
  assert (Hsteps : forall nw,
    pipeline fs (set_no_weight nw args) =
    (delta_Q <- get_delta_Q nw
                  (map atomic_mass (species (structure poscar_i)))
                  (map (fun i => np_dot
                          (vmap wrap
                             (vsub (Spec.position (structure poscar_f) i)
                                   (Spec.position (structure poscar_i) 0)))
                          (matrix (lattice (structure poscar_i))))
                     (seq 0 (List.length (sites (structure poscar_f))))) ;;
     print "Delta Q:" delta_Q ;;
     frac_delta_M_proj <-
       get_frac_delta_M_proj
         (map (fun i => np_dot
                 (vmap wrap
                    (vsub (Spec.position (structure poscar_f) i)
                          (Spec.position (structure poscar_i) 0)))
                 (matrix (lattice (structure poscar_i))))
            (seq 0 (List.length (sites (structure poscar_f)))))
         (map (fun i => np_dot
                 (vmap wrap
                    (vsub (Spec.position (structure poscar_m) i)
                          (Spec.position (structure poscar_i) 0)))
                 (matrix (lattice (structure poscar_i))))
            (seq 0 (List.length (sites (structure poscar_m))))) ;;
     res <- get_res nw (map atomic_mass (species (structure poscar_i)))
              frac_delta_M_proj ;;
     print "Projected delta Q:" (np_mul delta_Q res) ;;
     print "Fractional displacement:" res)).
  { intros nw. unfold pipeline. simpl init. simpl fin. simpl med.
    simpl no_weight.
    destruct (read_poscar_found fs (Some (init args)) false _ found_i)
      as [s1 ->].
    destruct (read_poscar_found fs (Some (fin args)) true _ found_f)
      as [s2 ->].
    destruct (read_poscar_found fs (med args) false _ found_m) as [s3 ->].
    rewrite !bind_ret_l. simpl fst.
    rewrite (min_image_single_initial _ _ _ Hi Hf), bind_ret_l.
    apply bind_ext. intros delta_Q. apply bind_ext. intros _.
    rewrite (not_unassigned _ Hmed). simpl negb. cbv iota.
    rewrite bind_ret_l. simpl fst.
    now rewrite (min_image_single_initial _ _ _ Hi Hm1), bind_ret_l. }
  rewrite !main_pipeline, !Hsteps, Hm.
  rewrite get_frac_delta_M_proj_table.
  destruct (single_site _ Hi) as [_ ->].
  split.
  - unfold get_delta_Q.
    rewrite broadcast_left_single by now rewrite !length_map, length_seq.
    simpl shape. rewrite !bind_ret_l, bind_print.
    unfold get_res, np_average_weights.
    rewrite !length_map, length_seq.
    apply Nat.eqb_neq in Hf. simpl List.length. rewrite Hf.
    eexists. reflexivity.
  - unfold get_delta_Q. rewrite !bind_ret_l, bind_print.
    unfold get_res, np_average. rewrite bind_ret_l.
    do 3 eexists. reflexivity.
Qed.

(** A one-atom initial file with the two-atom pair. *)
Lemma single_initial_atom_breaks_weighted_average_witness :
  exists delta_Q,
    main (files near_i pair_f pair_m) (with_med false) =
    Run [("Delta Q:"%string, delta_Q)] (inl TypeError).
Proof.
  refine (proj1 (single_initial_atom_breaks_weighted_average
                   (files near_i pair_f pair_m) (with_med false)
                   near_i pair_f pair_m eq_refl eq_refl eq_refl eq_refl
                   _ eq_refl (with_med_not_unassigned false))).
  simpl. discriminate.
Defined.

(** ** Periodic images *)













(** ** Weighting when all masses are equal *)










(** ** Changing the length unit of the cell *)








(** ** Weighted against unweighted *)




